(** * OfferCollection: client-side pagination of voucher offers

    A shallow embedding of
    [ecommerce/static/js/collections/offer_collection.js] and of the
    fetch that the redeem page performs on it, followed by the properties
    of the pagination cursor.

    Numbers.  Every number the collection handles is an integer (a page
    number, an index, a length); JavaScript computes exactly on integers
    below 2^53, so they are modelled in [Z].  [Math.ceil (a / b)] on such
    integers is the integer ceiling of the quotient. *)

From Stdlib Require Import ZArith Lia.
From stdpp Require Import base list numbers.

Set Implicit Arguments.
#[local] Open Scope Z_scope.

(** ** The store and its monad *)

Section OfferCollection.

(** [models/offer_model]: the records are not interpreted here.  The
    one thing the collection asks of a record is whether it is a model
    it already holds (the same id): that is equality of records, and
    records without an id are all different. *)
Context {Offer : Type} `{EqDecision Offer}.

(** The JSON object handed to [parse]. *)
Record Response := { results : list Offer }.

(** The fields of the collection object.  [numberOfPages] is written by
    [updateNumberOfPages] only: [None] is the property while it holds
    no integer ([undefined] until the first 'update'). *)
Record OfferStore := {
  models : list Offer;
  empty : bool;
  page : Z;
  perPage : Z;
  lowerLimit : Z;
  upperLimit : Z;
  numberOfPages : option Z
}.

(** What a navigation method hands back: [false] or an array. *)
Inductive value :=
| VFalse
| VArray (items : list Offer).

(** Methods run on [this]: a state monad over the store. *)
Definition M (A : Type) : Type := OfferStore -> A * OfferStore.

#[global] Instance M_ret : MRet M := fun A a s => (a, s).
#[global] Instance M_bind : MBind M :=
  fun A B f m s => let '(a, s') := m s in f a s'.

Definition this : M OfferStore := fun s => (s, s).
Definition assign (f : OfferStore -> OfferStore) : M unit := fun s => (tt, f s).

Definition set_models (v : list Offer) (s : OfferStore) : OfferStore :=
  {| models := v; empty := empty s; page := page s; perPage := perPage s;
     lowerLimit := lowerLimit s; upperLimit := upperLimit s;
     numberOfPages := numberOfPages s |}.
Definition set_empty (v : bool) (s : OfferStore) : OfferStore :=
  {| models := models s; empty := v; page := page s; perPage := perPage s;
     lowerLimit := lowerLimit s; upperLimit := upperLimit s;
     numberOfPages := numberOfPages s |}.
Definition set_page (v : Z) (s : OfferStore) : OfferStore :=
  {| models := models s; empty := empty s; page := v; perPage := perPage s;
     lowerLimit := lowerLimit s; upperLimit := upperLimit s;
     numberOfPages := numberOfPages s |}.
Definition set_perPage (v : Z) (s : OfferStore) : OfferStore :=
  {| models := models s; empty := empty s; page := page s; perPage := v;
     lowerLimit := lowerLimit s; upperLimit := upperLimit s;
     numberOfPages := numberOfPages s |}.
Definition set_lowerLimit (v : Z) (s : OfferStore) : OfferStore :=
  {| models := models s; empty := empty s; page := page s; perPage := perPage s;
     lowerLimit := v; upperLimit := upperLimit s;
     numberOfPages := numberOfPages s |}.
Definition set_upperLimit (v : Z) (s : OfferStore) : OfferStore :=
  {| models := models s; empty := empty s; page := page s; perPage := perPage s;
     lowerLimit := lowerLimit s; upperLimit := v;
     numberOfPages := numberOfPages s |}.
Definition set_numberOfPages (v : option Z) (s : OfferStore) : OfferStore :=
  {| models := models s; empty := empty s; page := page s; perPage := perPage s;
     lowerLimit := lowerLimit s; upperLimit := upperLimit s;
     numberOfPages := v |}.

(** ** The array primitives the methods call *)

(** [Array.prototype.slice (start, end)] on integer arguments: a negative
    argument counts from the end of the array, both are then clamped to
    [0 .. len], and the elements [k .. final - 1] are copied (none when
    [final <= k]). *)
Definition slice (l : list Offer) (start end_ : Z) : list Offer :=
  let len := Z.of_nat (length l) in
  let k := if start <? 0 then Z.max (len + start) 0 else Z.min start len in
  let final := if end_ <? 0 then Z.max (len + end_) 0 else Z.min end_ len in
  take (Z.to_nat (final - k)) (drop (Z.to_nat k) l).

(** [Math.ceil (a / b)] for integers [a] and [b <> 0]. *)
Definition ceil_div (a b : Z) : Z := - ((- a) / b).

(** [this.length] *)
Definition length_of (s : OfferStore) : Z := Z.of_nat (length (models s)).

(** ** offer_collection.js *)

(** [updateLimits] *)
Definition updateLimits : M unit :=
  s ← this;
  assign (set_lowerLimit ((page s - 1) * perPage s));;
  s ← this;
  assign (set_upperLimit (page s * perPage s)).

(** [updateNumberOfPages].  With [perPage = 0] the quotient is [NaN] or
    [Infinity], which no page number is equal to: the property then
    holds no integer. *)
Definition updateNumberOfPages : M unit :=
  s ← this;
  assign (set_numberOfPages
            (if perPage s =? 0 then None
             else Some (ceil_div (length_of s) (perPage s)))).

(** The object before [initialize] has run: an empty collection.  The
    number fields are still unset; all but [numberOfPages] are written
    by [initialize] before anything reads them. *)
Definition blank : OfferStore :=
  {| models := []; empty := false; page := 0; perPage := 0;
     lowerLimit := 0; upperLimit := 0; numberOfPages := None |}.

(** [initialize].  Its last statement registers [updateNumberOfPages]
    as the listener of 'update': see [fetch]. *)
Definition initialize : M unit :=
  assign (set_empty false);;
  assign (set_page 1);;
  assign (set_perPage 6);;
  assign (set_empty false);;
  updateLimits.

(** [new OfferCollection()] *)
Definition new_OfferCollection : OfferStore := (initialize blank).2.

(** Modelled from the spec: [parse] of the parent
    [collections/paginated_collection], whose source is absent.  The
    spec gives the parent no effect on the pagination state, and its
    result is dropped by the caller. *)
Definition super_parse (response : Response) : M unit := mret tt.

(** [parse] *)
Definition parse (response : Response) : M (list Offer) :=
  super_parse response;;
  (if Z.of_nat (length (results response)) =? 0
   then assign (set_empty true) else mret tt);;
  mret (results response).

(** [goToPage] *)
Definition goToPage (pageNumber : Z) : M value :=
  assign (set_page pageNumber);;
  updateLimits;;
  s ← this;
  mret (VArray (slice (models s) (lowerLimit s) (upperLimit s))).

(** [onFirstPage] *)
Definition onFirstPage : M bool :=
  s ← this; mret (page s =? 1).

(** [onLastPage]: [===] between the page number and [numberOfPages]. *)
Definition onLastPage : M bool :=
  s ← this;
  mret (match numberOfPages s with Some n => page s =? n | None => false end).

(** [nextPage] *)
Definition nextPage : M value :=
  atEnd ← onLastPage;
  if (atEnd : bool) then mret VFalse
  else s ← this; goToPage (page s + 1).

(** [previousPage] *)
Definition previousPage : M value :=
  atStart ← onFirstPage;
  if (atStart : bool) then mret VFalse
  else s ← this; goToPage (page s - 1).

(** ** The fetch of the redeem page *)

(** The records of a response that the collection adds: those that are
    neither held already ([known]) nor met earlier in the same
    response, in response order.  The others are merged into the model
    held, which stays where it is. *)
Fixpoint to_add (known incoming : list Offer) : list Offer :=
  match incoming with
  | [] => []
  | x :: rest =>
      if decide (x ∈ known) then to_add known rest
      else x :: to_add (x :: known) rest
  end.

(** [collection.fetch] of the framework (its code is not part of the
    sources), with the options of the redeem page ([remove: false]):
    the response goes through [parse]; the records stored stay, the new
    ones follow them; and 'update' is triggered only when a record was
    added, which runs the listener that [initialize] registered.  A load
    that adds nothing runs no listener.  (Where the framework also
    triggers 'update' for merged records, the listener recomputes the
    value [numberOfPages] already has on every store a new collection
    reaches: records are merged only after some were added.) *)
Definition fetch (response : Response) : M unit :=
  records ← parse response;
  s ← this;
  let added := to_add (models s) records in
  assign (set_models (models s ++ added));;
  match added with
  | [] => mret tt
  | _ :: _ => updateNumberOfPages
  end.

(** The collection of a redeem page once its constructor is through:
    [new OfferCollection()] and the one synchronous fetch. *)
Definition RedeemPage_collection (response : Response) : OfferStore :=
  (fetch response new_OfferCollection).2.

(** ** Sequences of calls *)

Inductive call :=
| Parse (response : Response)
| Fetch (response : Response)
| GoToPage (pageNumber : Z)
| NextPage
| PreviousPage.

Definition perform (c : call) (s : OfferStore) : OfferStore :=
  match c with
  | Parse r => (parse r s).2
  | Fetch r => (fetch r s).2
  | GoToPage n => (goToPage n s).2
  | NextPage => (nextPage s).2
  | PreviousPage => (previousPage s).2
  end.

Definition perform_all (cs : list call) (s : OfferStore) : OfferStore :=
  foldl (fun s c => perform c s) s cs.

(** A call that only moves the cursor one page. *)
Definition is_step (c : call) : bool :=
  match c with NextPage | PreviousPage => true | _ => false end.

End OfferCollection.

Arguments Response : clear implicits.
Arguments OfferStore : clear implicits.
Arguments value : clear implicits.
Arguments call : clear implicits.
Arguments M : clear implicits.

(** ** The statements of the specification, in its own words *)

Section Specification.

Context {Offer : Type} `{EqDecision Offer}.

(** [records[lo : hi]] clipped to the array bounds: the records at the
    positions [i] with [lo <= i < hi] that the array has. *)
Definition clipped (records : list Offer) (lo hi : Z) : list Offer :=
  let lo' := Z.max lo 0 in
  let hi' := Z.min hi (Z.of_nat (length records)) in
  take (Z.to_nat (hi' - lo')) (drop (Z.to_nat lo') records).

(** "[goToPage p] returns [records[(p-1)*6 : p*6]] clipped to the array
    bounds", at one store and page number. *)
Definition returns_clipped_page (s : OfferStore Offer) (p : Z) : Prop :=
  (goToPage p s).1 = VArray (clipped (models s) ((p - 1) * 6) (p * 6)).

(** "[load] sets [empty = (records.length == 0)]", at one load. *)
Definition empty_follows_load (r : Response Offer) (s : OfferStore Offer) : Prop :=
  empty (fetch r s).2 = (Z.of_nat (length (results r)) =? 0).


(** "[page] is in [[1, numberOfPages]]". *)
Definition page_in_range (s : OfferStore Offer) : bool :=
  match numberOfPages s with
  | Some n => (1 <=? page s) && (page s <=? n)
  | None => false
  end.

End Specification.

(** ** Stores to run the methods on *)

Definition offers (n : nat) : Response nat := {| results := seq 0 n |}.

(** The scenario of the specification: thirteen records. *)
Definition store13 : OfferStore nat := RedeemPage_collection (offers 13).
Definition store13_last : OfferStore nat := (goToPage 3 store13).2.

(** A redeem page whose voucher has no offer. *)
Definition store0 : OfferStore nat := RedeemPage_collection (offers 0).

(** A response of seven records, the first one sent twice. *)
Definition repeated_offer : Response nat :=
  {| results := [0; 0; 1; 2; 3; 4; 5]%nat |}.

(** Forward past the last page, then one page back. *)
Definition there_and_back : list (call nat) :=
  [NextPage; NextPage; NextPage; PreviousPage].

(** ** Reading the cursor and the returned pages *)

Section Reading.

Context {Offer : Type}.

(** The records a navigation method handed back: those of the array,
    none for [false]. *)
Definition records_of (v : value Offer) : list Offer :=
  match v with
  | VArray items => items
  | VFalse => []
  end.

(** The limits are the ones [updateLimits] computes for the current
    page. *)
Definition limits_agree (s : OfferStore Offer) : Prop :=
  lowerLimit s = (page s - 1) * perPage s /\
  upperLimit s = page s * perPage s.

(** [numberOfPages] is the one [updateNumberOfPages] computes for the
    stored records, six to a page. *)
Definition pages_counted (s : OfferStore Offer) : Prop :=
  perPage s = 6 /\
  numberOfPages s = Some (ceil_div (length_of s) 6).

(** A call to one of the three navigation methods. *)
Definition is_navigation (c : call Offer) : bool :=
  match c with
  | GoToPage _ | NextPage | PreviousPage => true
  | _ => false
  end.

(** The records of page [p], as [goToPage] returns them. *)
Definition page_records (s : OfferStore Offer) (p : Z) : list Offer :=
  records_of (goToPage p s).1.

End Reading.

(** Page 2 of the thirteen records. *)
Definition store13_middle : OfferStore nat := (goToPage 2 store13).2.

(** A jump past the three pages of the thirteen records. *)
Definition store13_beyond : OfferStore nat := (goToPage 5 store13).2.

(** * Properties *)

Section Properties.

Context {Offer : Type} `{EqDecision Offer}.
Implicit Types (s : OfferStore Offer) (r : Response Offer).
Implicit Types (l : list Offer) (c : call Offer) (cs : list (call Offer)).

(** ** The methods, as functions of the store *)

Lemma updateLimits_eq s :
  updateLimits s =
  (tt, set_upperLimit (page s * perPage s)
         (set_lowerLimit ((page s - 1) * perPage s) s)).
Proof. reflexivity. Qed.

Lemma goToPage_eq p s :
  goToPage p s =
  (VArray (slice (models s) ((p - 1) * perPage s) (p * perPage s)),
   set_upperLimit (p * perPage s)
     (set_lowerLimit ((p - 1) * perPage s) (set_page p s))).
Proof. reflexivity. Qed.

Lemma onFirstPage_eq s : onFirstPage s = (page s =? 1, s).
Proof. reflexivity. Qed.

Lemma onLastPage_eq s :
  onLastPage s =
  (match numberOfPages s with Some n => page s =? n | None => false end, s).
Proof. reflexivity. Qed.

Lemma nextPage_eq s :
  nextPage s =
  if (onLastPage s).1 then (VFalse, s) else goToPage (page s + 1) s.
Proof.
  unfold nextPage, mbind, M_bind. rewrite onLastPage_eq. cbn.
  destruct (numberOfPages s) as [n|]; [destruct (page s =? n)|]; reflexivity.
Qed.

Lemma previousPage_eq s :
  previousPage s =
  if (onFirstPage s).1 then (VFalse, s) else goToPage (page s - 1) s.
Proof.
  unfold previousPage, mbind, M_bind. rewrite onFirstPage_eq. cbn.
  destruct (page s =? 1); reflexivity.
Qed.

Lemma parse_eq r s :
  parse r s =
  (results r,
   if Z.of_nat (length (results r)) =? 0 then set_empty true s else s).
Proof.
  unfold parse, super_parse, mbind, M_bind, mret, M_ret.
  destruct (Z.of_nat (length (results r)) =? 0); reflexivity.
Qed.

Lemma fetch_eq r s :
  fetch r s =
  let s1 := (parse r s).2 in
  let s2 := set_models (models s1 ++ to_add (models s1) (results r)) s1 in
  (tt,
   match to_add (models s1) (results r) with
   | [] => s2
   | _ :: _ =>
       set_numberOfPages
         (if perPage s2 =? 0 then None
          else Some (ceil_div (length_of s2) (perPage s2))) s2
   end).
Proof.
  unfold fetch, mbind, M_bind. rewrite parse_eq. cbn [fst snd this assign].
  destruct (to_add _ (results r)); reflexivity.
Qed.

Lemma on_last_iff s :
  (onLastPage s).1 = true <-> numberOfPages s = Some (page s).
Proof.
  rewrite onLastPage_eq. cbn. destruct (numberOfPages s) as [n|].
  - rewrite Z.eqb_eq. split; [intros ->; reflexivity | congruence].
  - split; discriminate.
Qed.

Lemma on_first_iff s : (onFirstPage s).1 = true <-> page s = 1.
Proof. rewrite onFirstPage_eq. cbn. apply Z.eqb_eq. Qed.

(** ** [slice] against the clipped range *)

Lemma slice_nonneg l lo hi :
  0 <= lo -> 0 <= hi -> slice l lo hi = clipped l lo hi.
Proof.
  intros Hlo Hhi. unfold slice, clipped.
  destruct (Z.ltb_spec lo 0) as [?|_]; [lia|].
  destruct (Z.ltb_spec hi 0) as [?|_]; [lia|].
  rewrite (Z.max_l lo 0) by lia.
  destruct (Z_le_gt_dec lo (Z.of_nat (length l))) as [Hle|Hgt].
  - rewrite (Z.min_l lo) by lia. reflexivity.
  - rewrite (drop_ge l (Z.to_nat (Z.min lo (Z.of_nat (length l))))) by lia.
    rewrite (drop_ge l (Z.to_nat lo)) by lia.
    rewrite !take_nil. reflexivity.
Qed.

Lemma slice_until_0 l lo : slice l lo 0 = [] /\ clipped l lo 0 = [].
Proof.
  unfold slice, clipped. cbn [Z.ltb Z.compare].
  split; [destruct (Z.ltb_spec lo 0)|];
    (match goal with
     | |- take ?n _ = _ => replace n with 0%nat by lia
     end); apply take_0.
Qed.

(** Both limits negative: the window is counted from the end. *)
Lemma slice_negative l lo hi :
  lo < 0 -> hi < 0 ->
  slice l lo hi =
  clipped l (Z.of_nat (length l) + lo) (Z.of_nat (length l) + hi).
Proof.
  intros Hlo Hhi. unfold slice, clipped.
  destruct (Z.ltb_spec lo 0) as [_|?]; [|lia].
  destruct (Z.ltb_spec hi 0) as [_|?]; [|lia].
  rewrite (Z.min_l (Z.of_nat (length l) + hi)) by lia.
  destruct (Z_le_gt_dec 0 (Z.of_nat (length l) + hi)) as [Hle|Hgt].
  - rewrite (Z.max_l (Z.of_nat (length l) + hi) 0) by lia. reflexivity.
  - replace (Z.to_nat (Z.max (Z.of_nat (length l) + hi) 0 - _)) with 0%nat by lia.
    replace (Z.to_nat (Z.of_nat (length l) + hi - _)) with 0%nat by lia.
    reflexivity.
Qed.

(** The clipped range, position by position. *)
Lemma clipped_lookup l lo hi (i : nat) :
  clipped l lo hi !! i =
  if decide (Z.max lo 0 + Z.of_nat i < hi)
  then l !! (Z.to_nat (Z.max lo 0) + i)%nat else None.
Proof.
  unfold clipped. rewrite lookup_take, lookup_drop.
  case_decide as H1; case_decide as H2; try reflexivity.
  - exfalso. lia.
  - symmetry. apply lookup_ge_None_2. lia.
Qed.

Lemma clipped_length l lo hi :
  Z.of_nat (length (clipped l lo hi)) =
  Z.max 0 (Z.min hi (Z.of_nat (length l)) - Z.max lo 0).
Proof. unfold clipped. rewrite length_take, length_drop. lia. Qed.

(** A page of the clipped range: six records, fewer on the last page,
    none past the end. *)
Lemma clipped_page_length l p :
  1 <= p ->
  Z.of_nat (length (clipped l ((p - 1) * 6) (p * 6))) =
  Z.max 0 (Z.min 6 (Z.of_nat (length l) - (p - 1) * 6)).
Proof. intros Hp. rewrite clipped_length. lia. Qed.

(** ** Arithmetic of the page count *)

Lemma ceil_div_spec a b :
  0 < b -> b * (ceil_div a b - 1) < a <= b * ceil_div a b.
Proof.
  intros Hb. unfold ceil_div.
  pose proof (Z.div_mod (- a) b ltac:(lia)) as Hdiv.
  pose proof (Z.mod_pos_bound (- a) b Hb) as Hmod.
  lia.
Qed.

Lemma ceil_div_unique a b n :
  0 < b -> b * (n - 1) < a <= b * n -> ceil_div a b = n.
Proof.
  intros Hb Hn. pose proof (ceil_div_spec a Hb) as Hc. nia.
Qed.

(** ** What each call leaves alone *)

Lemma goToPage_frame p s :
  models (goToPage p s).2 = models s /\
  perPage (goToPage p s).2 = perPage s /\
  empty (goToPage p s).2 = empty s /\
  numberOfPages (goToPage p s).2 = numberOfPages s.
Proof. rewrite goToPage_eq. repeat split. Qed.

Lemma nextPage_frame s :
  models (nextPage s).2 = models s /\
  perPage (nextPage s).2 = perPage s /\
  empty (nextPage s).2 = empty s /\
  numberOfPages (nextPage s).2 = numberOfPages s.
Proof.
  rewrite nextPage_eq. destruct (onLastPage s).1.
  - repeat split.
  - apply goToPage_frame.
Qed.

Lemma previousPage_frame s :
  models (previousPage s).2 = models s /\
  perPage (previousPage s).2 = perPage s /\
  empty (previousPage s).2 = empty s /\
  numberOfPages (previousPage s).2 = numberOfPages s.
Proof.
  rewrite previousPage_eq. destruct (onFirstPage s).1.
  - repeat split.
  - apply goToPage_frame.
Qed.

Lemma parse_state r s :
  perPage (parse r s).2 = perPage s /\
  models (parse r s).2 = models s /\
  page (parse r s).2 = page s /\
  numberOfPages (parse r s).2 = numberOfPages s /\
  empty (parse r s).2 = empty s || (Z.of_nat (length (results r)) =? 0).
Proof.
  rewrite parse_eq. cbn [snd].
  destruct (Z.of_nat (length (results r)) =? 0); cbn;
    rewrite ?orb_true_r, ?orb_false_r; repeat split.
Qed.

Lemma to_add_first (x : Offer) (rest : list Offer) :
  to_add [] (x :: rest) = x :: to_add [x] rest.
Proof.
  cbn [to_add]. destruct (decide (x ∈ [])) as [Hin|_]; [|reflexivity].
  apply elem_of_nil in Hin. contradiction.
Qed.

Lemma to_add_nil_iff (known incoming : list Offer) :
  to_add known incoming = [] <-> forall x, x ∈ incoming -> x ∈ known.
Proof.
  revert known. induction incoming as [|y rest IH]; intros known; cbn [to_add].
  - split; [intros _ x Hx; apply elem_of_nil in Hx; contradiction | reflexivity].
  - destruct (decide (y ∈ known)) as [Hy|Hy].
    + rewrite IH. split.
      * intros Hall x Hx. apply elem_of_cons in Hx as [->|Hx]; auto.
      * intros Hall x Hx. apply Hall. apply elem_of_cons. auto.
    + split; [discriminate|]. intros Hall. exfalso. apply Hy, Hall.
      apply elem_of_cons. auto.
Qed.


Lemma to_add_length (known incoming : list Offer) :
  (length (to_add known incoming) <= length incoming)%nat.
Proof.
  revert known. induction incoming as [|y rest IH]; intros known;
    cbn [to_add length]; [lia|].
  destruct (decide (y ∈ known)); cbn [length];
    [specialize (IH known) | specialize (IH (y :: known))]; lia.
Qed.

Lemma fetch_state r s :
  perPage (fetch r s).2 = perPage s /\
  models (fetch r s).2 = models s ++ to_add (models s) (results r) /\
  page (fetch r s).2 = page s /\
  empty (fetch r s).2 = empty s || (Z.of_nat (length (results r)) =? 0).
Proof.
  destruct (parse_state r s) as (Hpp & Hm & Hp & _ & He).
  rewrite fetch_eq. cbn zeta. cbn [snd]. rewrite Hm.
  destruct (to_add (models s) (results r)); cbn;
    rewrite ?Hpp, ?Hm, ?Hp, ?He; repeat split.
Qed.

Lemma perform_perPage c s : perPage (perform c s) = perPage s.
Proof.
  destruct c; cbn [perform].
  - apply parse_state.
  - apply fetch_state.
  - apply goToPage_frame.
  - apply nextPage_frame.
  - apply previousPage_frame.
Qed.

Lemma perform_all_cons c cs s :
  perform_all (c :: cs) s = perform_all cs (perform c s).
Proof. reflexivity. Qed.

Lemma perform_all_perPage cs s : perPage (perform_all cs s) = perPage s.
Proof.
  revert s. induction cs as [|c cs IH]; intros s; [reflexivity|].
  rewrite perform_all_cons, IH. apply perform_perPage.
Qed.

Lemma perform_empty c s : empty s = true -> empty (perform c s) = true.
Proof.
  intros He. destruct c; cbn [perform].
  - destruct (parse_state response s) as (_ & _ & _ & _ & ->).
    rewrite He. reflexivity.
  - destruct (fetch_state response s) as (_ & _ & _ & ->).
    rewrite He. reflexivity.
  - destruct (goToPage_frame pageNumber s) as (_ & _ & -> & _). exact He.
  - destruct (nextPage_frame s) as (_ & _ & -> & _). exact He.
  - destruct (previousPage_frame s) as (_ & _ & -> & _). exact He.
Qed.

Lemma perform_all_empty cs s :
  empty s = true -> empty (perform_all cs s) = true.
Proof.
  revert s. induction cs as [|c cs IH]; intros s He; [exact He|].
  rewrite perform_all_cons. apply IH, perform_empty, He.
Qed.

Lemma fetch_numberOfPages r s :
  perPage s = 6 ->
  numberOfPages (fetch r s).2 =
  match to_add (models s) (results r) with
  | [] => numberOfPages s
  | _ :: _ => Some (ceil_div (length_of (fetch r s).2) 6)
  end.
Proof.
  intros H6. destruct (parse_state r s) as (Hpp & Hm & _ & Hn & _).
  rewrite fetch_eq. cbn zeta. cbn [snd]. rewrite Hm.
  destruct (to_add (models s) (results r)); cbn.
  - exact Hn.
  - rewrite Hpp, H6. reflexivity.
Qed.

Lemma new_OfferCollection_eq :
  new_OfferCollection (Offer := Offer) =
  {| models := []; empty := false; page := 1; perPage := 6;
     lowerLimit := 0; upperLimit := 6; numberOfPages := None |}.
Proof. reflexivity. Qed.

Lemma RedeemPage_collection_eq r :
  RedeemPage_collection r =
  {| models := to_add [] (results r);
     empty := Z.of_nat (length (results r)) =? 0;
     page := 1; perPage := 6; lowerLimit := 0; upperLimit := 6;
     numberOfPages :=
       match results r with
       | [] => None
       | _ :: _ =>
           Some (ceil_div (Z.of_nat (length (to_add [] (results r)))) 6)
       end |}.
Proof.
  unfold RedeemPage_collection. rewrite fetch_eq, parse_eq.
  rewrite new_OfferCollection_eq. cbn [snd].
  destruct (results r) as [|x rest]; [reflexivity|].
  change (Z.of_nat (length (x :: rest)) =? 0) with false. cbn iota.
  cbn [models]. rewrite to_add_first. reflexivity.
Qed.

(** ** Direct page jumps *)

(** C1 (amended): on a store of page size 6, [goToPage p] sets [page]
    to [p], [lowerLimit] to [(p-1)*6] and [upperLimit] to [p*6], for
    every integer [p].  For [p >= 0] it returns the records
    [records[(p-1)*6 : p*6]] clipped to the array bounds; for [p < 0]
    both limits are negative and [slice] counts them from the end of
    the array, so the result is the clipped range
    [records[L+(p-1)*6 : L+p*6]], [L] being the number of records. *)
Theorem goToPage_returns_page s p :
  perPage s = 6 ->
  page (goToPage p s).2 = p /\
  lowerLimit (goToPage p s).2 = (p - 1) * 6 /\
  upperLimit (goToPage p s).2 = p * 6 /\
  (goToPage p s).1 =
    VArray (if p <? 0
            then clipped (models s)
                   (length_of s + (p - 1) * 6) (length_of s + p * 6)
            else clipped (models s) ((p - 1) * 6) (p * 6)).
Proof.
  intros H6. rewrite goToPage_eq, H6. cbn [fst snd].
  repeat split. f_equal.
  destruct (Z.ltb_spec p 0) as [Hneg|Hpos].
  - apply slice_negative; lia.
  - destruct (Z.eq_dec p 0) as [->|Hp].
    + change (0 * 6) with 0.
      destruct (slice_until_0 (models s) ((0 - 1) * 6)) as [-> ->].
      reflexivity.
    + apply slice_nonneg; lia.
Qed.

(** ** Loading *)

(** C2 (amended): a fetch sets [empty] when the response has no
    record and leaves it alone otherwise, so after it [empty] is
    [empty before || (records.length == 0)]; on a collection that was
    just constructed this is [records.length == 0]. *)
Theorem empty_after_fetch r s :
  empty (fetch r s).2 = empty s || (Z.of_nat (length (results r)) =? 0) /\
  empty (RedeemPage_collection r) = (Z.of_nat (length (results r)) =? 0).
Proof.
  split.
  - apply fetch_state.
  - rewrite RedeemPage_collection_eq. reflexivity.
Qed.


(** ** Stepping *)

(** C5: on the last page ([page == numberOfPages]) [nextPage] returns
    [false] and the store is as it was. *)
Theorem nextPage_on_last_page s :
  numberOfPages s = Some (page s) -> nextPage s = (VFalse, s).
Proof.
  intros Hlast. rewrite nextPage_eq.
  rewrite (proj2 (on_last_iff s) Hlast). reflexivity.
Qed.

(** C6: on the first page ([page == 1]) [previousPage] returns [false]
    and the store is as it was. *)
Theorem previousPage_on_first_page s :
  page s = 1 -> previousPage s = (VFalse, s).
Proof.
  intros Hfirst. rewrite previousPage_eq.
  rewrite (proj2 (on_first_iff s) Hfirst). reflexivity.
Qed.

(** C7: [onFirstPage] is true exactly when [page == 1], [onLastPage]
    exactly when [page == numberOfPages], and neither changes the
    store. *)
Theorem page_predicates s :
  ((onFirstPage s).1 = true <-> page s = 1) /\
  ((onLastPage s).1 = true <-> numberOfPages s = Some (page s)) /\
  (onFirstPage s).2 = s /\
  (onLastPage s).2 = s.
Proof.
  split; [apply on_first_iff|].
  split; [apply on_last_iff|].
  split; reflexivity.
Qed.

(** C8: off the last page [nextPage] is [goToPage (page + 1)], and off
    the first page [previousPage] is [goToPage (page - 1)]: the same
    returned value and the same store. *)
Theorem step_is_goToPage s :
  (numberOfPages s <> Some (page s) ->
   nextPage s = goToPage (page s + 1) s) /\
  (page s <> 1 ->
   previousPage s = goToPage (page s - 1) s).
Proof.
  split; intros Hoff.
  - rewrite nextPage_eq. destruct (onLastPage s).1 eqn:E; [|reflexivity].
    apply on_last_iff in E. contradiction.
  - rewrite previousPage_eq. destruct (onFirstPage s).1 eqn:E; [|reflexivity].
    apply on_first_iff in E. contradiction.
Qed.

(** ** The cursor under [nextPage] and [previousPage] *)

Lemma page_in_range_iff s :
  page_in_range s = true <->
  exists n, numberOfPages s = Some n /\ 1 <= page s <= n.
Proof.
  unfold page_in_range. destruct (numberOfPages s) as [n|].
  - rewrite andb_true_iff, !Z.leb_le. split.
    + intros H. exists n. split; [reflexivity | exact H].
    + intros (m & [= <-] & H). exact H.
  - split; [discriminate | intros (m & [=] & _)].
Qed.

Lemma nextPage_in_range s :
  page_in_range s = true -> page_in_range (nextPage s).2 = true.
Proof.
  intros Hin. rewrite nextPage_eq.
  destruct (onLastPage s).1 eqn:E; [exact Hin|].
  apply page_in_range_iff in Hin as (n & Hn & Hp).
  apply page_in_range_iff. exists n.
  rewrite goToPage_eq. cbn. split; [exact Hn|].
  rewrite onLastPage_eq, Hn in E. cbn in E.
  apply Z.eqb_neq in E. lia.
Qed.

Lemma previousPage_in_range s :
  page_in_range s = true -> page_in_range (previousPage s).2 = true.
Proof.
  intros Hin. rewrite previousPage_eq.
  destruct (onFirstPage s).1 eqn:E; [exact Hin|].
  apply page_in_range_iff in Hin as (n & Hn & Hp).
  apply page_in_range_iff. exists n.
  rewrite goToPage_eq. cbn. split; [exact Hn|].
  rewrite onFirstPage_eq in E. cbn in E.
  apply Z.eqb_neq in E. lia.
Qed.

Lemma steps_in_range cs s :
  forallb is_step cs = true ->
  page_in_range s = true -> page_in_range (perform_all cs s) = true.
Proof.
  revert s. induction cs as [|c cs IH]; intros s Hcs Hin; [exact Hin|].
  cbn [forallb] in Hcs. apply andb_true_iff in Hcs as [Hc Hcs].
  rewrite perform_all_cons. apply IH; [exact Hcs|].
  destruct c; try discriminate Hc; cbn [perform].
  - apply nextPage_in_range, Hin.
  - apply previousPage_in_range, Hin.
Qed.

(** C3 (amended): when the load of a new collection brought at least
    one record, [page] is in [[1, numberOfPages]] in every state that
    [nextPage] and [previousPage] calls reach from it, and there a
    [nextPage] on the last page, or a [previousPage] on the first,
    returns [false] and leaves the store as it was. *)
Theorem page_stays_in_range r cs :
  results r <> [] ->
  forallb is_step cs = true ->
  page_in_range (perform_all cs (RedeemPage_collection r)) = true /\
  (numberOfPages (perform_all cs (RedeemPage_collection r)) =
     Some (page (perform_all cs (RedeemPage_collection r))) ->
   nextPage (perform_all cs (RedeemPage_collection r)) =
     (VFalse, perform_all cs (RedeemPage_collection r))) /\
  (page (perform_all cs (RedeemPage_collection r)) = 1 ->
   previousPage (perform_all cs (RedeemPage_collection r)) =
     (VFalse, perform_all cs (RedeemPage_collection r))).
Proof.
  intros Hne Hcs. split; [|split].
  - apply steps_in_range; [exact Hcs|].
    rewrite RedeemPage_collection_eq. unfold page_in_range.
    cbn [numberOfPages page].
    destruct (results r) as [|x rest]; [contradiction|].
    rewrite to_add_first. change (1 <=? 1) with true. cbn [andb].
    apply Z.leb_le.
    pose proof (ceil_div_spec (Z.of_nat (length (x :: to_add [x] rest)))
                  (b := 6) ltac:(lia)) as Hc.
    cbn [length] in Hc |- *. lia.
  - intros Hlast. rewrite nextPage_eq.
    rewrite (proj2 (on_last_iff _) Hlast). reflexivity.
  - intros Hfirst. rewrite previousPage_eq.
    rewrite (proj2 (on_first_iff _) Hfirst). reflexivity.
Qed.

(** ** The flag and the frame *)

(** C9: the parse of a response without records sets [empty], and no
    sequence of later calls ([parse], fetch, [goToPage], [nextPage],
    [previousPage]) on that collection clears it. *)
Theorem empty_is_sticky s cs :
  empty (parse {| results := [] |} s).2 = true /\
  empty (perform_all cs (parse {| results := [] |} s).2) = true.
Proof.
  assert (empty (parse {| results := [] |} s).2 = true) as He.
  { rewrite parse_eq. reflexivity. }
  split; [exact He|]. apply perform_all_empty, He.
Qed.

(** C10: [goToPage n], [nextPage] and [previousPage] leave the stored
    records, [perPage], [empty] and [numberOfPages] as they were. *)
Theorem navigation_frame s n :
  (models (goToPage n s).2 = models s /\
   perPage (goToPage n s).2 = perPage s /\
   empty (goToPage n s).2 = empty s /\
   numberOfPages (goToPage n s).2 = numberOfPages s) /\
  (models (nextPage s).2 = models s /\
   perPage (nextPage s).2 = perPage s /\
   empty (nextPage s).2 = empty s /\
   numberOfPages (nextPage s).2 = numberOfPages s) /\
  (models (previousPage s).2 = models s /\
   perPage (previousPage s).2 = perPage s /\
   empty (previousPage s).2 = empty s /\
   numberOfPages (previousPage s).2 = numberOfPages s).
Proof.
  split; [apply goToPage_frame|].
  split; [apply nextPage_frame | apply previousPage_frame].
Qed.

End Properties.

(** * The statements at concrete stores *)

(** The scenario of the specification: thirteen records make three
    pages; page 2 is [records[6:12]], page 3 is [records[12:13]], and
    [nextPage] from page 3 returns [false]. *)
Example scenario_thirteen :
  numberOfPages store13 = Some 3 /\
  (goToPage 2 store13).1 = VArray [6; 7; 8; 9; 10; 11]%nat /\
  (goToPage 3 store13).1 = VArray [12]%nat /\
  (nextPage store13_last).1 = VFalse.
Proof. repeat split. Qed.

(** A load of no record: [empty] is set, and no 'update' has run. *)
Example scenario_no_offer :
  empty store0 = true /\ numberOfPages store0 = None.
Proof. split; reflexivity. Qed.

(** A record sent twice is stored once; the same records sent again
    are merged and leave thirteen records on three pages. *)
Example scenario_repeated :
  models (RedeemPage_collection repeated_offer) = [0; 1; 2; 3; 4; 5]%nat /\
  numberOfPages (RedeemPage_collection repeated_offer) = Some 1 /\
  (fetch (offers 13) store13).2 = store13.
Proof. repeat split. Qed.

(** C1, at page 2 of the thirteen records. *)
Lemma goToPage_returns_page_witness :
  perPage store13 = 6 /\
  (goToPage 2 store13).1 = VArray (clipped (models store13) 6 12).
Proof.
  split; [reflexivity|].
  apply (goToPage_returns_page store13 2). reflexivity.
Defined.

(** C1 as the specification has it fails at page -1 of the thirteen
    records: the limits are -12 and -6, [slice] counts them from the
    end and returns [records[1:7]], where the clipped range is empty. *)
Lemma goToPage_negative_page_not_clipped :
  (goToPage (-1) store13).1 = VArray [1; 2; 3; 4; 5; 6]%nat /\
  clipped (models store13) ((-1 - 1) * 6) (-1 * 6) = [] /\
  ~ returns_clipped_page store13 (-1).
Proof.
  split; [reflexivity|]. split; [reflexivity|].
  unfold returns_clipped_page. vm_compute. discriminate.
Qed.

(** C2 as the specification has it fails when a response with a record
    follows one without: [empty] stays set. *)
Lemma empty_not_reset_by_fetch :
  empty (fetch (offers 1) store0).2 = true /\
  (Z.of_nat (length (results (offers 1))) =? 0) = false /\
  ~ empty_follows_load (offers 1) store0.
Proof.
  split; [reflexivity|]. split; [reflexivity|].
  unfold empty_follows_load. vm_compute. discriminate.
Qed.

(** C3 as the specification has it fails on the store without records:
    [numberOfPages] is unset there, page 1 is in no range
    [[1, numberOfPages]] from the start, and [nextPage] moves on to
    page 2. *)
Lemma empty_store_page_out_of_range :
  numberOfPages store0 = None /\
  page_in_range store0 = false /\
  page (nextPage store0).2 = 2 /\
  page_in_range (perform_all [NextPage] store0) = false.
Proof. repeat split. Qed.



(** C3, stepping over the three pages of the thirteen records. *)
Lemma page_stays_in_range_witness :
  results (offers 13) <> [] /\
  forallb is_step there_and_back = true /\
  page_in_range (perform_all there_and_back store13) = true.
Proof.
  split; [discriminate|]. split; [reflexivity|].
  apply (page_stays_in_range (offers 13) there_and_back);
    [discriminate | reflexivity].
Defined.

(** C5, on page 3 of 3. *)
Lemma nextPage_on_last_page_witness :
  numberOfPages store13_last = Some (page store13_last) /\
  nextPage store13_last = (VFalse, store13_last).
Proof.
  split; [reflexivity|].
  apply nextPage_on_last_page. reflexivity.
Defined.

(** C6, on page 1 of 3. *)
Lemma previousPage_on_first_page_witness :
  page store13 = 1 /\ previousPage store13 = (VFalse, store13).
Proof.
  split; [reflexivity|].
  apply previousPage_on_first_page. reflexivity.
Defined.

(** C8, forward from page 1 and back from page 3. *)
Lemma step_is_goToPage_witness :
  nextPage store13 = goToPage 2 store13 /\
  previousPage store13_last = goToPage 2 store13_last.
Proof.
  split.
  - apply (proj1 (step_is_goToPage store13)). discriminate.
  - apply (proj2 (step_is_goToPage store13_last)). discriminate.
Defined.


(** * Further properties of the cursor *)

Section Cursor.

Context {Offer : Type} `{EqDecision Offer}.
Implicit Types (s : OfferStore Offer) (r : Response Offer).
Implicit Types (l : list Offer) (c : call Offer) (cs : list (call Offer)).

Lemma parse_limits r s :
  page (parse r s).2 = page s /\
  perPage (parse r s).2 = perPage s /\
  lowerLimit (parse r s).2 = lowerLimit s /\
  upperLimit (parse r s).2 = upperLimit s.
Proof.
  rewrite parse_eq. cbn [snd].
  destruct (Z.of_nat (length (results r)) =? 0); repeat split.
Qed.

Lemma fetch_limits r s :
  page (fetch r s).2 = page s /\
  perPage (fetch r s).2 = perPage s /\
  lowerLimit (fetch r s).2 = lowerLimit s /\
  upperLimit (fetch r s).2 = upperLimit s.
Proof.
  destruct (parse_limits r s) as (Hp & Hpp & Hl & Hu).
  rewrite fetch_eq. cbn zeta. cbn [snd].
  destruct (to_add _ (results r)); cbn; rewrite Hp, Hpp, Hl, Hu; repeat split.
Qed.

Lemma goToPage_limits p s : limits_agree (goToPage p s).2.
Proof. rewrite goToPage_eq. split; reflexivity. Qed.

Lemma perform_limits c s : limits_agree s -> limits_agree (perform c s).
Proof.
  intros [Hl Hu]. destruct c; cbn [perform].
  - destruct (parse_limits response s) as (Hp & Hpp & Hl' & Hu').
    unfold limits_agree. rewrite Hp, Hpp, Hl', Hu'. split; assumption.
  - destruct (fetch_limits response s) as (Hp & Hpp & Hl' & Hu').
    unfold limits_agree. rewrite Hp, Hpp, Hl', Hu'. split; assumption.
  - apply goToPage_limits.
  - rewrite nextPage_eq. destruct (onLastPage s).1.
    + split; assumption.
    + apply goToPage_limits.
  - rewrite previousPage_eq. destruct (onFirstPage s).1.
    + split; assumption.
    + apply goToPage_limits.
Qed.

(** X1: in every store that calls to [parse], the fetch and the
    navigation methods reach from a new collection, the page size is 6
    and the limits are those of the current page:
    [lowerLimit = (page - 1) * 6] and [upperLimit = page * 6]. *)
Theorem limits_follow_page cs :
  perPage (perform_all cs (new_OfferCollection (Offer := Offer))) = 6 /\
  lowerLimit (perform_all cs (new_OfferCollection (Offer := Offer))) =
    (page (perform_all cs (new_OfferCollection (Offer := Offer))) - 1) * 6 /\
  upperLimit (perform_all cs (new_OfferCollection (Offer := Offer))) =
    page (perform_all cs (new_OfferCollection (Offer := Offer))) * 6.
Proof.
  assert (forall ds s, limits_agree s -> limits_agree (perform_all ds s))
    as Hall.
  { induction ds as [|d ds IH]; intros s Hs; [exact Hs|].
    rewrite perform_all_cons. apply IH, perform_limits, Hs. }
  assert (perPage (perform_all cs (new_OfferCollection (Offer := Offer))) = 6)
    as H6 by (rewrite perform_all_perPage; reflexivity).
  destruct (Hall cs (new_OfferCollection (Offer := Offer))) as [Hl Hu].
  { split; reflexivity. }
  rewrite H6 in Hl, Hu. split; [exact H6|]. split; assumption.
Qed.

(** ** Navigation leaves no trace in later jumps *)

Lemma perform_navigation_goToPage c s q :
  is_navigation c = true -> goToPage q (perform c s) = goToPage q s.
Proof.
  intros Hc. destruct c; try discriminate Hc; cbn [perform].
  - reflexivity.
  - rewrite nextPage_eq. destruct (onLastPage s).1; reflexivity.
  - rewrite previousPage_eq. destruct (onFirstPage s).1; reflexivity.
Qed.

(** X2: a jump forgets the navigation before it.  After any sequence of
    [goToPage], [nextPage] and [previousPage] calls, [goToPage q]
    returns the same records and leaves the same store as [goToPage q]
    on the store the sequence started from. *)
Theorem goToPage_after_navigation cs s q :
  forallb is_navigation cs = true ->
  goToPage q (perform_all cs s) = goToPage q s.
Proof.
  revert s. induction cs as [|c cs IH]; intros s Hcs; [reflexivity|].
  cbn [forallb] in Hcs. apply andb_true_iff in Hcs as [Hc Hcs].
  rewrite perform_all_cons, IH by exact Hcs.
  apply perform_navigation_goToPage, Hc.
Qed.

(** ** The [false] result *)

Lemma goToPage_changes_page_back p s :
  p <> page s -> (goToPage p s).2 <> s.
Proof.
  intros Hp Heq. apply Hp. rewrite <- Heq. reflexivity.
Qed.

(** X3: [nextPage] returns [false] exactly on the last page, and that
    is the only case in which it leaves the store as it was; the same
    for [previousPage] and the first page.  An empty page comes back as
    an empty array, never as [false]. *)
Theorem false_means_no_move s :
  ((nextPage s).1 = VFalse <-> numberOfPages s = Some (page s)) /\
  ((nextPage s).2 = s <-> numberOfPages s = Some (page s)) /\
  ((previousPage s).1 = VFalse <-> page s = 1) /\
  ((previousPage s).2 = s <-> page s = 1).
Proof.
  rewrite <- on_last_iff, <- on_first_iff.
  rewrite nextPage_eq, previousPage_eq.
  destruct (onLastPage s).1, (onFirstPage s).1; cbn [fst snd];
    repeat split; try reflexivity; try discriminate;
    try (intros H; exfalso; revert H; rewrite goToPage_eq; cbn [fst];
         discriminate);
    intros H; exfalso; revert H; apply goToPage_changes_page_back; lia.
Qed.

(** ** One step forward, one step back *)

Lemma nextPage_moves s :
  numberOfPages s <> Some (page s) -> nextPage s = goToPage (page s + 1) s.
Proof.
  intros Hoff. rewrite nextPage_eq.
  destruct (onLastPage s).1 eqn:E; [|reflexivity].
  apply on_last_iff in E. contradiction.
Qed.

Lemma previousPage_moves s :
  page s <> 1 -> previousPage s = goToPage (page s - 1) s.
Proof.
  intros Hoff. rewrite previousPage_eq.
  destruct (onFirstPage s).1 eqn:E; [|reflexivity].
  apply on_first_iff in E. contradiction.
Qed.

Lemma goToPage_goToPage p q s :
  goToPage q (goToPage p s).2 = goToPage q s.
Proof. reflexivity. Qed.

Lemma goToPage_own_page s : limits_agree s -> (goToPage (page s) s).2 = s.
Proof.
  intros [Hl Hu]. rewrite goToPage_eq. destruct s. cbn in *.
  subst. reflexivity.
Qed.

(** X4: when the limits are those of the current page, a [nextPage]
    that moves (not on the last page), followed by [previousPage],
    brings the store back, provided the page left is not page 0; and a
    [previousPage] that moves (not on the first page), followed by
    [nextPage], brings it back, provided [numberOfPages] is not the
    page before. *)
Theorem step_round_trip s :
  limits_agree s ->
  (numberOfPages s <> Some (page s) -> page s <> 0 ->
   (previousPage (nextPage s).2).2 = s) /\
  (page s <> 1 -> numberOfPages s <> Some (page s - 1) ->
   (nextPage (previousPage s).2).2 = s).
Proof.
  intros Hlim. split.
  - intros Hlast H0. rewrite (nextPage_moves s Hlast).
    rewrite previousPage_moves by (rewrite goToPage_eq; cbn; lia).
    replace (page (goToPage (page s + 1) s).2 - 1) with (page s)
      by (rewrite goToPage_eq; cbn; lia).
    rewrite goToPage_goToPage.
    apply goToPage_own_page, Hlim.
  - intros H1 Hprev. rewrite (previousPage_moves s H1).
    rewrite nextPage_moves by (rewrite goToPage_eq; cbn; exact Hprev).
    replace (page (goToPage (page s - 1) s).2 + 1) with (page s)
      by (rewrite goToPage_eq; cbn; lia).
    rewrite goToPage_goToPage.
    apply goToPage_own_page, Hlim.
Qed.

(** ** Repeated steps *)

Lemma nextPage_page s :
  page (nextPage s).2 =
  if (onLastPage s).1 then page s else page s + 1.
Proof.
  rewrite nextPage_eq. destruct (onLastPage s).1; reflexivity.
Qed.

Lemma previousPage_page s :
  page (previousPage s).2 =
  if (onFirstPage s).1 then page s else page s - 1.
Proof.
  rewrite previousPage_eq. destruct (onFirstPage s).1; reflexivity.
Qed.

(** X5: [k] calls of [nextPage] stop at the last page when they start
    at or before it: the page is then [min numberOfPages (page + k)].
    When they start past it, or [numberOfPages] was never computed,
    the guard never holds and the page is [page + k]. *)
Theorem nextPage_repeated (k : nat) s :
  page (perform_all (replicate k NextPage) s) =
  match numberOfPages s with
  | Some n =>
      if page s <=? n then Z.min n (page s + Z.of_nat k)
      else page s + Z.of_nat k
  | None => page s + Z.of_nat k
  end.
Proof.
  revert s. induction k as [|k IH]; intros s.
  - cbn [replicate perform_all foldl]. destruct (numberOfPages s) as [n|]; [|lia].
    destruct (Z.leb_spec (page s) n); lia.
  - cbn [replicate]. rewrite perform_all_cons, IH. cbn [perform].
    destruct (nextPage_frame s) as (_ & _ & _ & ->).
    rewrite nextPage_page, onLastPage_eq. cbn [fst].
    destruct (numberOfPages s) as [n|]; [|lia].
    destruct (Z.eqb_spec (page s) n) as [->|Hne].
    + destruct (Z.leb_spec n n); lia.
    + destruct (Z.leb_spec (page s) n), (Z.leb_spec (page s + 1) n); lia.
Qed.

(** X6: [k] calls of [previousPage] stop at page 1 when they start at
    or after it: the page is then [max 1 (page - k)].  When they start
    before page 1 the guard never holds and the page is [page - k]. *)
Theorem previousPage_repeated (k : nat) s :
  page (perform_all (replicate k PreviousPage) s) =
  if 1 <=? page s then Z.max 1 (page s - Z.of_nat k)
  else page s - Z.of_nat k.
Proof.
  revert s. induction k as [|k IH]; intros s.
  - cbn [replicate perform_all foldl]. destruct (Z.leb_spec 1 (page s)); lia.
  - cbn [replicate]. rewrite perform_all_cons, IH. cbn [perform].
    rewrite previousPage_page, onFirstPage_eq. cbn [fst].
    destruct (Z.eqb_spec (page s) 1) as [->|Hne].
    + cbn. lia.
    + destruct (Z.leb_spec 1 (page s)), (Z.leb_spec 1 (page s - 1)); lia.
Qed.

(** ** What a page holds *)

Lemma clipped_window l lo w :
  0 <= lo -> 0 <= w ->
  clipped l lo (lo + w) = take (Z.to_nat w) (drop (Z.to_nat lo) l).
Proof.
  intros Hlo Hw. unfold clipped. rewrite (Z.max_l lo 0) by lia.
  destruct (Z_le_gt_dec (lo + w) (Z.of_nat (length l))) as [Hle|Hgt].
  - rewrite Z.min_l by lia. f_equal. lia.
  - rewrite Z.min_r by lia.
    rewrite (take_ge _ (Z.to_nat w)) by (rewrite length_drop; lia).
    apply take_ge. rewrite length_drop. lia.
Qed.

Lemma page_records_eq s p :
  perPage s = 6 -> 1 <= p ->
  page_records s p = take 6 (drop (Z.to_nat ((p - 1) * 6)) (models s)).
Proof.
  intros H6 Hp. unfold page_records. rewrite goToPage_eq, H6. cbn [fst records_of].
  rewrite slice_nonneg by lia.
  replace (p * 6) with ((p - 1) * 6 + 6) by lia.
  rewrite clipped_window by lia. reflexivity.
Qed.

Lemma page_records_length s p :
  perPage s = 6 -> 1 <= p ->
  Z.of_nat (length (page_records s p)) =
  Z.max 0 (Z.min 6 (length_of s - (p - 1) * 6)).
Proof.
  intros H6 Hp. rewrite page_records_eq by assumption.
  rewrite length_take, length_drop. unfold length_of. lia.
Qed.

Lemma slice_sublist l lo hi : slice l lo hi `sublist_of` l.
Proof.
  unfold slice. etransitivity; [apply sublist_take | apply sublist_drop].
Qed.

Lemma slice_page_length l p :
  Z.of_nat (length (slice l ((p - 1) * 6) (p * 6))) <= 6.
Proof.
  destruct (Z.ltb_spec p 0) as [Hneg|Hpos].
  - rewrite slice_negative, clipped_length by lia. lia.
  - destruct (Z.eq_dec p 0) as [->|Hp].
    + change (0 * 6) with 0.
      destruct (slice_until_0 l ((0 - 1) * 6)) as [-> _]. cbn. lia.
    + rewrite slice_nonneg, clipped_length by lia. lia.
Qed.

(** X7: with page size 6, the array that [goToPage], [nextPage] or
    [previousPage] returns never holds more than six records, whatever
    the page number (also a negative one or one past the end), and its
    records are records of the collection, in the stored order. *)
Theorem page_is_small_part s p :
  perPage s = 6 ->
  (Z.of_nat (length (records_of (goToPage p s).1)) <= 6 /\
   records_of (goToPage p s).1 `sublist_of` models s) /\
  (Z.of_nat (length (records_of (nextPage s).1)) <= 6 /\
   records_of (nextPage s).1 `sublist_of` models s) /\
  (Z.of_nat (length (records_of (previousPage s).1)) <= 6 /\
   records_of (previousPage s).1 `sublist_of` models s).
Proof.
  intros H6.
  assert (forall q,
    Z.of_nat (length (records_of (goToPage q s).1)) <= 6 /\
    records_of (goToPage q s).1 `sublist_of` models s) as Hgo.
  { intros q. rewrite goToPage_eq, H6. cbn [fst records_of].
    split; [apply slice_page_length | apply slice_sublist]. }
  split; [apply Hgo|]. split.
  - rewrite nextPage_eq. destruct (onLastPage s).1; [|apply Hgo].
    cbn. split; [lia | apply sublist_nil_l].
  - rewrite previousPage_eq. destruct (onFirstPage s).1; [|apply Hgo].
    cbn. split; [lia | apply sublist_nil_l].
Qed.

(** X8: when [numberOfPages] is up to date (the ceiling of the number
    of records over 6), every page before the last holds exactly six
    records, the last page holds the remaining ones, between one and
    six, and every page after the last is empty. *)
Theorem page_fill s n p :
  pages_counted s ->
  numberOfPages s = Some n ->
  1 <= p ->
  (p < n -> Z.of_nat (length (page_records s p)) = 6) /\
  (p = n ->
   Z.of_nat (length (page_records s p)) = length_of s - 6 * (n - 1) /\
   1 <= Z.of_nat (length (page_records s p)) <= 6) /\
  (n < p -> page_records s p = []).
Proof.
  intros [H6 Hn] Hn' Hp. rewrite Hn in Hn'. injection Hn' as <-.
  pose proof (ceil_div_spec (length_of s) (b := 6) ltac:(lia)) as Hc.
  pose proof (page_records_length s H6 Hp) as Hlen.
  split; [|split].
  - intros Hlt. lia.
  - intros ->. lia.
  - intros Hgt. apply nil_length_inv. lia.
Qed.

Lemma first_pages s (k : nat) :
  perPage s = 6 ->
  concat (map (fun i : nat => page_records s (Z.of_nat i)) (seq 1 k)) =
  take (6 * k) (models s).
Proof.
  intros H6. induction k as [|k IH]; [reflexivity|].
  rewrite seq_S, map_app, concat_app, IH. cbn [map concat].
  rewrite app_nil_r, page_records_eq by (assumption || lia).
  replace (Z.to_nat ((Z.of_nat (1 + k) - 1) * 6)) with (6 * k)%nat by lia.
  rewrite take_take_drop. f_equal. lia.
Qed.

(** X9: when [numberOfPages] is up to date, the pages 1 to
    [numberOfPages], one after the other, are the stored records: each
    record is on one page, in the stored order, none is left out. *)
Theorem pages_cover_records s n :
  pages_counted s ->
  numberOfPages s = Some n ->
  concat (map (fun i : nat => page_records s (Z.of_nat i))
            (seq 1 (Z.to_nat n))) =
  models s.
Proof.
  intros [H6 Hn] Hn'. rewrite Hn in Hn'. injection Hn' as <-.
  rewrite first_pages by exact H6. apply take_ge.
  pose proof (ceil_div_spec (length_of s) (b := 6) ltac:(lia)) as Hc.
  unfold length_of in *. lia.
Qed.

Lemma page_records_lookup s p (i : nat) :
  perPage s = 6 -> 1 <= p ->
  page_records s p !! i =
  if decide (i < 6)%nat
  then models s !! (Z.to_nat ((p - 1) * 6) + i)%nat else None.
Proof.
  intros H6 Hp. rewrite page_records_eq by assumption.
  rewrite lookup_take, lookup_drop. reflexivity.
Qed.

(** X10: with page size 6, the record stored at index [j] is the one
    at position [j mod 6] of page [j / 6 + 1]. *)
Theorem record_on_its_page s (j : nat) :
  perPage s = 6 ->
  page_records s (Z.of_nat (j / 6) + 1) !! (j mod 6)%nat = models s !! j.
Proof.
  intros H6. rewrite page_records_lookup by (assumption || lia).
  pose proof (Nat.mod_upper_bound j 6 ltac:(lia)) as Hmod.
  pose proof (Nat.div_mod_eq j 6) as Hdiv.
  rewrite decide_True by exact Hmod.
  f_equal. lia.
Qed.

(** ** The predicates against the limits *)

(** X11: when [numberOfPages] is up to date, the limits are those of
    the current page and the page is between 1 and [numberOfPages],
    [onLastPage] holds exactly when no record lies at or beyond
    [upperLimit], and [onFirstPage] exactly when [lowerLimit] is 0. *)
Theorem predicates_against_limits s n :
  pages_counted s ->
  limits_agree s ->
  numberOfPages s = Some n ->
  1 <= page s <= n ->
  ((onLastPage s).1 = true <-> length_of s <= upperLimit s) /\
  ((onFirstPage s).1 = true <-> lowerLimit s = 0).
Proof.
  intros [H6 Hn] [Hl Hu] Hn' Hp.
  rewrite on_last_iff, on_first_iff, Hl, Hu, H6, Hn'.
  rewrite Hn in Hn'. injection Hn' as <-.
  pose proof (ceil_div_spec (length_of s) (b := 6) ltac:(lia)) as Hc.
  split; split.
  - intros [= Heq]. lia.
  - intros Hle. f_equal. lia.
  - lia.
  - lia.
Qed.

(** ** [parse] and the fetch *)

(** X12: [parse] returns the [results] of the response as they are and
    writes no field but [empty]: the records, the page, the limits and
    [numberOfPages] stay.  Afterwards [empty] holds exactly when it held
    before or the response had no record, and a second [parse] of the
    same response changes nothing more. *)
Theorem parse_touches_empty_only r s :
  (parse r s).1 = results r /\
  models (parse r s).2 = models s /\
  page (parse r s).2 = page s /\
  perPage (parse r s).2 = perPage s /\
  lowerLimit (parse r s).2 = lowerLimit s /\
  upperLimit (parse r s).2 = upperLimit s /\
  numberOfPages (parse r s).2 = numberOfPages s /\
  (empty (parse r s).2 = true <-> empty s = true \/ results r = []) /\
  parse r (parse r s).2 = parse r s.
Proof.
  destruct (parse_state r s) as (_ & Hm & _ & Hn & He).
  destruct (parse_limits r s) as (Hp & Hpp & Hl & Hu).
  split; [rewrite parse_eq; reflexivity|].
  do 6 (split; [assumption|]). split.
  - rewrite He, orb_true_iff, Z.eqb_eq.
    destruct (results r); cbn [length]; split; intros [H|H];
      auto; try lia; discriminate.
  - rewrite !parse_eq. cbn [snd].
    destruct (Z.of_nat (length (results r)) =? 0); reflexivity.
Qed.

Lemma perform_counted c s :
  perPage s = 6 ->
  (numberOfPages s = None /\ models s = []) \/
  numberOfPages s = Some (ceil_div (length_of s) 6) ->
  (numberOfPages (perform c s) = None /\ models (perform c s) = []) \/
  numberOfPages (perform c s) = Some (ceil_div (length_of (perform c s)) 6).
Proof.
  intros H6 Hs. unfold length_of in *. destruct c; cbn [perform].
  - destruct (parse_state response s) as (_ & -> & _ & -> & _). exact Hs.
  - rewrite (fetch_numberOfPages response s H6).
    destruct (fetch_state response s) as (_ & Hm & _). unfold length_of.
    rewrite Hm. destruct (to_add (models s) (results response)).
    + rewrite app_nil_r. exact Hs.
    + right. reflexivity.
  - destruct (goToPage_frame pageNumber s) as (-> & _ & _ & ->). exact Hs.
  - destruct (nextPage_frame s) as (-> & _ & _ & ->). exact Hs.
  - destruct (previousPage_frame s) as (-> & _ & _ & ->). exact Hs.
Qed.

(** X13: in every store that calls to [parse], the fetch and the
    navigation methods reach from a new collection, [numberOfPages] is
    never stale: either it is unset and no record is stored, or it is
    the ceiling of the number of stored records over 6. *)
Theorem numberOfPages_kept_up_to_date cs :
  (numberOfPages (perform_all cs (new_OfferCollection (Offer := Offer))) = None /\
   models (perform_all cs (new_OfferCollection (Offer := Offer))) = []) \/
  numberOfPages (perform_all cs (new_OfferCollection (Offer := Offer))) =
    Some (ceil_div
            (length_of (perform_all cs (new_OfferCollection (Offer := Offer))))
            6).
Proof.
  assert (forall ds s,
    perPage s = 6 ->
    (numberOfPages s = None /\ models s = []) \/
    numberOfPages s = Some (ceil_div (length_of s) 6) ->
    (numberOfPages (perform_all ds s) = None /\ models (perform_all ds s) = [])
    \/ numberOfPages (perform_all ds s) =
       Some (ceil_div (length_of (perform_all ds s)) 6)) as Hall.
  { induction ds as [|d ds IH]; intros s H6 Hs; [exact Hs|].
    rewrite perform_all_cons. apply IH.
    - rewrite perform_perPage. exact H6.
    - apply perform_counted; assumption. }
  apply Hall; [reflexivity|]. left. split; reflexivity.
Qed.

End Cursor.

(** * The further properties at concrete stores *)

(** X2, after the walk over the thirteen records. *)
Lemma goToPage_after_navigation_witness :
  forallb is_navigation there_and_back = true /\
  goToPage 3 (perform_all there_and_back store13) = goToPage 3 store13.
Proof.
  split; [reflexivity|].
  apply (goToPage_after_navigation there_and_back store13 3). reflexivity.
Defined.

(** X4, around page 2 of the thirteen records. *)
Lemma step_round_trip_witness :
  limits_agree store13_middle /\
  (previousPage (nextPage store13_middle).2).2 = store13_middle /\
  (nextPage (previousPage store13_middle).2).2 = store13_middle.
Proof.
  assert (limits_agree store13_middle) as Hlim by (split; reflexivity).
  split; [exact Hlim|]. split.
  - apply (proj1 (step_round_trip Hlim)); discriminate.
  - apply (proj2 (step_round_trip Hlim)); discriminate.
Defined.

(** X7, on page 2 of the thirteen records. *)
Lemma page_is_small_part_witness :
  perPage store13 = 6 /\
  Z.of_nat (length (records_of (goToPage 2 store13).1)) <= 6.
Proof.
  split; [reflexivity|].
  apply (page_is_small_part store13 2). reflexivity.
Defined.

(** X8, on the three pages of the thirteen records. *)
Lemma page_fill_witness :
  pages_counted store13 /\
  numberOfPages store13 = Some 3 /\
  Z.of_nat (length (page_records store13 2)) = 6.
Proof.
  assert (pages_counted store13) as Hc by (split; reflexivity).
  split; [exact Hc|]. split; [reflexivity|].
  apply (page_fill (s := store13) (n := 3) (p := 2) Hc); [reflexivity|lia|lia].
Defined.

(** X9, on the thirteen records. *)
Lemma pages_cover_records_witness :
  pages_counted store13 /\
  numberOfPages store13 = Some 3 /\
  page_records store13 1 ++ page_records store13 2 ++
    page_records store13 3 ++ [] = models store13.
Proof.
  assert (pages_counted store13) as Hc by (split; reflexivity).
  split; [exact Hc|]. split; [reflexivity|].
  apply (pages_cover_records (s := store13) (n := 3) Hc). reflexivity.
Defined.

(** X10, for the record at index 8 of the thirteen. *)
Lemma record_on_its_page_witness :
  perPage store13 = 6 /\
  page_records store13 2 !! 2%nat = models store13 !! 8%nat.
Proof.
  split; [reflexivity|].
  apply (record_on_its_page store13 8). reflexivity.
Defined.

(** X11, on the last page of the thirteen records. *)
Lemma predicates_against_limits_witness :
  pages_counted store13_last /\
  limits_agree store13_last /\
  numberOfPages store13_last = Some 3 /\
  1 <= page store13_last <= 3 /\
  ((onLastPage store13_last).1 = true <->
   length_of store13_last <= upperLimit store13_last).
Proof.
  assert (pages_counted store13_last) as Hc by (split; reflexivity).
  assert (limits_agree store13_last) as Hl by (split; reflexivity).
  assert (1 <= page store13_last <= 3) as Hp by (change (1 <= 3 <= 3); lia).
  split; [exact Hc|]. split; [exact Hl|]. split; [reflexivity|].
  split; [exact Hp|].
  apply (predicates_against_limits (n := 3) Hc Hl eq_refl Hp).
Defined.

(** X5 past the end: after a jump to page 5 of 3, and on the store
    without records, [nextPage] keeps moving on. *)
Example nextPage_past_the_end :
  page (perform_all (replicate 2 NextPage) store13_beyond) = 7 /\
  page (perform_all (replicate 2 NextPage) store0) = 3 /\
  (nextPage store0).1 = VArray [].
Proof. repeat split. Qed.
